(** * Monthly aggregation of MODIS biophysical parameters

    A shallow embedding of [MODIS_monthly_aggregation_code.py]: the script
    reads two CSV time series (16-day and 8-day composites), averages a fixed
    set of variables per (name, year, month), joins the two monthly tables,
    derives a month-start date, rounds to four decimals and writes one
    spreadsheet.

    Measured values are exact rationals ([Q]); a NaN (an empty CSV field, or
    the value pandas gives a group with no observation) is [None].  The
    representation error of binary floating point is outside the model. *)

From Stdlib Require Import ZArith QArith Qround Lqa String Ascii.
From stdpp Require Import gmap strings list sorting.

Local Open Scope Z_scope.

(** ** Exceptions and results *)

Inductive exn :=
  | FileNotFoundError (path : string)
  | KeyError (label : string)
  | DateParseError (text : string)
  | ValueError (year month : Z).

Inductive result (A : Type) :=
  | Ok (a : A)
  | Raise (e : exn).
Arguments Ok {A} a.
Arguments Raise {A} e.

#[global] Instance result_ret : MRet result := @Ok.
#[global] Instance result_bind : MBind result := λ A B f r,
  match r with
  | Ok a => f a
  | Raise e => Raise e
  end.

Definition is_Ok {A} (r : result A) : Prop :=
  match r with Ok _ => True | Raise _ => False end.

(** ** Rounding: [Series.round(4)]

    numpy rounds to [d] decimals by scaling with [10^d], rounding to the
    nearest integer with ties to even ([rint]) and scaling back. *)

Definition rint (x : Q) : Z :=
  let f := Qfloor x in
  match (x - inject_Z f ?= 1 # 2)%Q with
  | Lt => f
  | Gt => f + 1
  | Eq => if Z.even f then f else f + 1
  end.

Definition round4 (x : Q) : Q := (inject_Z (rint (x * 10000)) / 10000)%Q.

(** NaN stays NaN. *)
Definition round_value (v : option Q) : option Q := round4 <$> v.

(** ** Tables as read by [pd.read_csv]

    Only the columns the script touches are kept, each possibly absent from
    the file.  An empty field is [None].  The [date] column holds the text of
    the field; the numeric columns are looked up by header. *)

Record table := {
  name_column : option (list (option string));
  date_column : option (list (option string));
  year_column : option (list (option Z));
  month_column : option (list (option Z));
  value_columns : gmap string (list (option Q))
}.

(** [df[label]]: a [KeyError] when the column is not there. *)
Definition getitem {A} (label : string) (c : option A) : result A :=
  match c with
  | Some x => Ok x
  | None => Raise (KeyError label)
  end.

Abbreviation key := (string * Z * Z)%type.

(** One row of a table, restricted to the grouping key and the selected
    value columns.  The key is [None] when one of its three fields is NaN. *)
Record obs := {
  obs_key : option key;
  obs_vals : list (option Q)
}.

Definition make_key (n : option string) (ym : option Z * option Z) : option key :=
  n' ← n; y ← ym.1; m ← ym.2; Some (n', y, m).

Definition rows_of (names : list (option string)) (years months : list (option Z))
    (cols : list (list (option Q))) : list obs :=
  imap (λ i k, {| obs_key := k; obs_vals := (λ c, mjoin (c !! i)) <$> cols |})
       (zip_with make_key names (zip years months)).

(** [df.groupby(['name', 'year', 'month'], as_index=False)[vars]]: the key
    columns are looked up first, then the selected columns. *)
Definition groupby_select (vars : list string) (df : table) : result (list obs) :=
  names ← getitem "name" (name_column df);
  years ← getitem "year" (year_column df);
  months ← getitem "month" (month_column df);
  cols ← mapM (λ v, getitem v (value_columns df !! v)) vars;
  mret (rows_of names years months cols).

(** ** [GroupBy.mean]

    One pass over the rows keeps, for every key met and every selected
    column, the running sum and the number of observations; NaN values are
    skipped ([skipna]) and rows whose key is NaN are dropped ([dropna]).  The
    groups come out sorted by key. *)

Record acc := { sumx : Q; nobs : nat }.

Definition acc0 : acc := {| sumx := 0; nobs := 0 |}.

Definition add_obs (a : acc) (v : option Q) : acc :=
  match v with
  | Some x => {| sumx := (sumx a + x)%Q; nobs := S (nobs a) |}
  | None => a
  end.

Definition finish (a : acc) : option Q :=
  match nobs a with
  | O => None
  | S _ => Some (sumx a / inject_Z (Z.of_nat (nobs a)))%Q
  end.

Definition observe (nv : nat) (m : gmap key (list acc)) (r : obs) : gmap key (list acc) :=
  match obs_key r with
  | None => m
  | Some k => <[k := zip_with add_obs (default (replicate nv acc0) (m !! k)) (obs_vals r)]> m
  end.

(** A frame keyed by (name, year, month) with a row of value columns. *)
Record keyed := {
  k_key : key;
  k_vals : list (option Q)
}.

(** Lexicographic order on keys: names as strings, then year, then month. *)
Definition key_le (k1 k2 : key) : Prop :=
  (k1.1.1 ≠ k2.1.1 ∧ String.le k1.1.1 k2.1.1) ∨
  (k1.1.1 = k2.1.1 ∧ (k1.1.2 < k2.1.2 ∨ (k1.1.2 = k2.1.2 ∧ k1.2 ≤ k2.2))).

#[global] Instance key_le_dec : RelDecision key_le.
Proof. intros k1 k2. unfold key_le. apply _. Defined.

Definition keyed_le (r1 r2 : keyed) : Prop := key_le (k_key r1) (k_key r2).

#[global] Instance keyed_le_dec : RelDecision keyed_le.
Proof. intros r1 r2. unfold keyed_le. apply _. Defined.

Definition finish_group (g : key * list acc) : keyed :=
  {| k_key := g.1; k_vals := finish <$> g.2 |}.

Definition group_mean (nv : nat) (rows : list obs) : list keyed :=
  merge_sort keyed_le (finish_group <$> map_to_list (foldl (observe nv) ∅ rows)).

Definition groupby_mean (vars : list string) (df : table) : result (list keyed) :=
  rows ← groupby_select vars df;
  mret (group_mean (length vars) rows).

(** ** [pd.merge(left, right, on=['name', 'year', 'month'], how='outer')]

    Every left row is paired with each right row of the same key, or padded
    with NaN when there is none; right rows whose key is not on the left are
    padded on the left.  The result is sorted by key. *)

Definition join_left (nr : nat) (right : list keyed) (l : keyed) : list keyed :=
  match filter (λ r, k_key r = k_key l) right with
  | [] => [ {| k_key := k_key l; k_vals := k_vals l ++ replicate nr None |} ]
  | rs => (λ r, {| k_key := k_key l; k_vals := k_vals l ++ k_vals r |}) <$> rs
  end.

Definition right_only (nl : nat) (left : list keyed) (right : list keyed) : list keyed :=
  (λ r, {| k_key := k_key r; k_vals := replicate nl None ++ k_vals r |})
    <$> filter (λ r, k_key r ∉ k_key <$> left) right.

Definition merge_outer (nl nr : nat) (left right : list keyed) : list keyed :=
  merge_sort keyed_le ((left ≫= join_left nr right) ++ right_only nl left right).

(** ** Dates *)

Record date := { d_year : Z; d_month : Z; d_day : Z }.

#[global] Instance date_eq_dec : EqDecision date.
Proof. solve_decision. Defined.

(** [pd.to_datetime(df[['year', 'month']].assign(day=1))] assembles one
    timestamp per row.  The months pandas can represent run from 1677-10 to
    2262-04 (nanosecond timestamps); anything else is a [ValueError]. *)
Definition month_ok (y m : Z) : bool :=
  bool_decide (1 ≤ m ≤ 12 ∧ 1677 * 12 + 10 ≤ y * 12 + m ≤ 2262 * 12 + 4).

Definition assemble_date (y m : Z) : result date :=
  if month_ok y m then Ok {| d_year := y; d_month := m; d_day := 1 |}
  else Raise (ValueError y m).

Record dated := {
  r_key : key;
  r_vals : list (option Q);
  r_date : date
}.

Definition add_date (r : keyed) : result dated :=
  d ← assemble_date (k_key r).1.2 (k_key r).2;
  mret {| r_key := k_key r; r_vals := k_vals r; r_date := d |}.

(** [for col in vars_16 + vars_8: df_monthly[col] = df_monthly[col].round(4)] *)
Definition round_row (r : dated) : dated :=
  {| r_key := r_key r; r_vals := round_value <$> r_vals r; r_date := r_date r |}.

(** ** Spreadsheets and the store *)

Inductive cell :=
  | Blank
  | Text (s : string)
  | Int (z : Z)
  | Float (q : Q)
  | Date (d : date).

Record sheet := { header : list string; body : list (list cell) }.

(** NaN is written as an empty cell. *)
Definition value_cell (v : option Q) : cell :=
  match v with
  | Some q => Float q
  | None => Blank
  end.

Definition sheet_row (r : dated) : list cell :=
  [Text (r_key r).1.1; Int (r_key r).1.2; Int (r_key r).2]
    ++ (value_cell <$> r_vals r) ++ [Date (r_date r)].

(** The store: the directories, the CSV files with what [read_csv] parses
    from them, and the spreadsheets written. *)
Record store := {
  dirs : gset string;
  csv_files : gmap string table;
  xlsx_files : gmap string sheet
}.

Definition read_csv (path : string) (fs : store) : result table :=
  match csv_files fs !! path with
  | Some t => Ok t
  | None => Raise (FileNotFoundError path)
  end.

(** [os.makedirs(d, exist_ok=True)] *)
Definition makedirs (d : string) (fs : store) : store :=
  {| dirs := {[d]} ∪ dirs fs; csv_files := csv_files fs; xlsx_files := xlsx_files fs |}.

Definition write_excel (path : string) (s : sheet) (fs : store) : store :=
  {| dirs := dirs fs; csv_files := csv_files fs; xlsx_files := <[path := s]> (xlsx_files fs) |}.

(** ** The script *)

Definition station_name : string := "ALGER_DAR_EL_BEIDA_AG".

Definition file_16day : string := "MODIS_TimeSeries_16Day_" +:+ station_name +:+ ".csv".
Definition file_8day : string := "MODIS_TimeSeries_8Day_" +:+ station_name +:+ ".csv".

Definition output_dir : string := "Monthly_data".

Definition vars_16 : list string := ["NDVI"; "EVI"; "VCI"]%string.
Definition vars_8 : list string := ["LAI"; "FAPAR"; "LST"]%string.

(** [os.path.join(a, b)] for two components, with the POSIX separator. *)
Definition path_join (a b : string) : string :=
  match b with
  | String "/" _ => b
  | _ =>
      match last (list_ascii_of_string a) with
      | None => b
      | Some "/"%char => a +:+ b
      | Some _ => a +:+ "/" +:+ b
      end
  end.

Definition output_file : string :=
  path_join output_dir ("MODIS_Monthly_" +:+ station_name +:+ ".xlsx").

(** The two lines the script prints when it is done. *)
Definition printed : list string :=
  ["Monthly MODIS aggregation successfully completed";
   "Monthly MODIS dataset exported to: " +:+ output_file]%string.

Section Script.
(** The text-to-date parser of [pd.to_datetime]. *)
Variable parse_date : string → option date.

(** [pd.to_datetime(column)]: an empty field becomes NaT, a field that does
    not parse raises. *)
Definition to_datetime (column : list (option string)) : result (list (option date)) :=
  mapM (λ c, match c with
             | None => Ok None
             | Some s => match parse_date s with
                         | Some d => Ok (Some d)
                         | None => Raise (DateParseError s)
                         end
             end) column.

(** [df['date'] = pd.to_datetime(df['date'])]; the converted column is not
    read again. *)
Definition convert_date (df : table) : result (list (option date)) :=
  getitem "date" (date_column df) ≫= to_datetime.

(** Sections 2 to 4 of the script and the rounding, on the two tables. *)
Definition monthly_table (df_16 df_8 : table) : result (list dated) :=
  _ ← convert_date df_16;
  _ ← convert_date df_8;
  monthly_16 ← groupby_mean vars_16 df_16;
  monthly_8 ← groupby_mean vars_8 df_8;
  let df_monthly := merge_outer (length vars_16) (length vars_8) monthly_16 monthly_8 in
  df_monthly ← mapM add_date df_monthly;
  mret (round_row <$> df_monthly).

(** [df_monthly.to_excel(output_file, index=False)]: the columns in the
    order the frame has them. *)
Definition to_sheet (df_monthly : list dated) : sheet :=
  {| header := ["name"; "year"; "month"]%string ++ vars_16 ++ vars_8 ++ ["date"%string];
     body := sheet_row <$> df_monthly |}.

Definition load_and_aggregate (fs : store) : result (list dated) :=
  df_16 ← read_csv file_16day fs;
  df_8 ← read_csv file_8day fs;
  monthly_table df_16 df_8.

(** The whole run: the lines printed or the exception, and the store it
    leaves.  The directory is made before anything is read; the sheet is
    written last. *)
Definition main (fs : store) : result (list string) * store :=
  let fs := makedirs output_dir fs in
  match load_and_aggregate fs with
  | Ok df_monthly => (Ok printed, write_excel output_file (to_sheet df_monthly) fs)
  | Raise e => (Raise e, fs)
  end.

(** The faults of an input table: a column the script reads is not there,
    or a field of the date column does not parse. *)
Definition column_absent (vars : list string) (df : table) : Prop :=
  name_column df = None ∨ date_column df = None ∨ year_column df = None ∨
  month_column df = None ∨ ∃ v, v ∈ vars ∧ value_columns df !! v = None.

Definition bad_date (df : table) : Prop :=
  ∃ column s, date_column df = Some column ∧ Some s ∈ column ∧ parse_date s = None.


Definition loaded (fs : store) (df_16 df_8 : table) : Prop :=
  csv_files fs !! file_16day = Some df_16 ∧ csv_files fs !! file_8day = Some df_8.

(** Every (year, month) of a table is a month a timestamp can hold. *)
Definition months_ok (df : table) : Prop :=
  ∀ years months i y m,
    year_column df = Some years → month_column df = Some months →
    years !! i = Some (Some y) → months !! i = Some (Some m) → month_ok y m.

End Script.

(** A parser for the ISO form [YYYY-MM-DD], one of the forms
    [pd.to_datetime] reads; it instantiates the parser in closed examples. *)

Definition digit (a : ascii) : option Z :=
  let n := Z.of_N (N_of_ascii a) in
  if bool_decide (48 ≤ n ≤ 57) then Some (n - 48) else None.

Definition leap_year (y : Z) : bool :=
  bool_decide (y `mod` 4 = 0 ∧ (y `mod` 100 ≠ 0 ∨ y `mod` 400 = 0)).

Definition days_in_month (y m : Z) : Z :=
  if bool_decide (m = 2) then (if leap_year y then 29 else 28)
  else if bool_decide (m ∈ [4; 6; 9; 11]) then 30 else 31.

Definition iso_date (s : string) : option date :=
  match list_ascii_of_string s with
  | [y1; y2; y3; y4; "-"; m1; m2; "-"; d1; d2]%char =>
      a ← digit y1; b ← digit y2; c ← digit y3; d ← digit y4;
      e ← digit m1; f ← digit m2; g ← digit d1; h ← digit d2;
      let y := 1000 * a + 100 * b + 10 * c + d in
      let m := 10 * e + f in
      let dd := 10 * g + h in
      if bool_decide (1 ≤ m ≤ 12 ∧ 1 ≤ dd ≤ days_in_month y m)
      then Some {| d_year := y; d_month := m; d_day := dd |}
      else None
  | _ => None
  end.


(** A value cell rounded to four decimals, and the shape of a sheet row. *)
Definition four_decimals (c : cell) : Prop :=
  match c with
  | Blank => True
  | Float q => ∃ k : Z, q = (inject_Z k / 10000)%Q
  | _ => False
  end.

Definition output_row (row : list cell) : Prop :=
  ∃ n y m ndvi evi vci lai fapar lst d,
    row = [Text n; Int y; Int m; ndvi; evi; vci; lai; fapar; lst; Date d] ∧
    Forall four_decimals [ndvi; evi; vci; lai; fapar; lst].

(** ** Reference notions used in the statements *)

Definition Qsum (xs : list Q) : Q := foldl Qplus 0%Q xs.

(** The arithmetic mean of the values that are not NaN, NaN when there is
    none. *)
Definition nanmean (vs : list (option Q)) : option Q :=
  match omap id vs with
  | [] => None
  | xs => Some (Qsum xs / inject_Z (Z.of_nat (length xs)))%Q
  end.

(** The rows of the group of key [k], and the values a list of rows has in
    its [j]-th selected column. *)
Definition group_rows (k : key) (rows : list obs) : list obs :=
  filter (λ r, obs_key r = Some k) rows.


(** The accumulators of a group after its rows have been observed. *)
Definition accumulate (accs : list acc) (grp : list obs) : list acc :=
  foldl (zip_with add_obs) accs (obs_vals <$> grp).

Definition observed (nv : nat) (o : option (list acc)) (grp : list obs) : option (list acc) :=
  match grp with
  | [] => o
  | _ => Some (accumulate (default (replicate nv acc0) o) grp)
  end.

(** The sentinel the exports use for an invalid reading, and the mean the
    script's description promises: NaN and sentinel readings left out. *)
Definition sentinel : Q := -9999.

Definition valid_values (vs : list (option Q)) : list Q :=
  omap (λ v, x ← v; if Qeq_bool x sentinel then None else Some x) vs.

Definition mean_of_valid (vs : list (option Q)) : option Q :=
  match valid_values vs with
  | [] => None
  | xs => Some (Qsum xs / inject_Z (Z.of_nat (length xs)))%Q
  end.

(** ** Sample inputs *)

Definition make_table (names dates : list (option string)) (years months : list (option Z))
    (values : list (string * list (option Q))) : table :=
  {| name_column := Some names; date_column := Some dates;
     year_column := Some years; month_column := Some months;
     value_columns := list_to_map values |}.

Definition store_of (df_16 df_8 : table) : store :=
  {| dirs := ∅;
     csv_files := {[ file_16day := df_16; file_8day := df_8 ]};
     xlsx_files := ∅ |}.

(** Two 16-day rows of February 2020 at station X with the given NDVI. *)
Definition february_16 (d1 d2 : option string) (ndvi evi vci : list (option Q)) : table :=
  make_table [Some "X"; Some "X"]%string [d1; d2] [Some 2020; Some 2020] [Some 2; Some 2]
    [("NDVI"%string, ndvi); ("EVI"%string, evi); ("VCI"%string, vci)].

(** One 8-day row of February 2020 at station X. *)
Definition february_8 (d : option string) (lai fapar lst : option Q) : table :=
  make_table [Some "X"%string] [d] [Some 2020] [Some 2]
    [("LAI"%string, [lai]); ("FAPAR"%string, [fapar]); ("LST"%string, [lst])].

Definition sentinel_16 : table :=
  february_16 (Some "2020-02-02"%string) (Some "2020-02-18"%string)
    [Some sentinel; Some 0.5%Q] [None; None] [None; None].

Definition all_sentinel_16 : table :=
  february_16 (Some "2020-02-02"%string) (Some "2020-02-18"%string)
    [Some sentinel; Some sentinel] [None; None] [None; None].

Definition plain_8 : table :=
  february_8 (Some "2020-02-02"%string) None None (Some 300%Q).


(** Tables with several stations and months; one 16-day row has no name. *)
Definition mixed_16 : table :=
  make_table [Some "X"; Some "X"; Some "X"; Some "A"; None]%string
    [Some "2020-02-02"; Some "2020-02-18"; Some "2020-03-05"; Some "2021-01-01"; None]%string
    [Some 2020; Some 2020; Some 2020; Some 2021; Some 2020]
    [Some 2; Some 2; Some 3; Some 1; Some 2]
    [("NDVI"%string, [Some 0.4; Some 0.6; None; Some 0.123456; Some 1]%Q);
     ("EVI"%string, [None; Some 0.25; None; Some sentinel; None]%Q);
     ("VCI"%string, [Some 50; None; None; Some 12.34565; None]%Q)].

Definition mixed_8 : table :=
  make_table [Some "X"; Some "B"]%string [Some "2020-02-10"; Some "2020-05-09"]%string
    [Some 2020; Some 2020] [Some 2; Some 5]
    [("LAI"%string, [None; Some 1.5]%Q); ("FAPAR"%string, [Some 0.33333; None]%Q);
     ("LST"%string, [Some 300; Some 290.5]%Q)].




(** ** Notions for the further properties *)

(** Row [i] of a table carries the complete key [k]. *)
Definition row_at (df : table) (i : nat) (k : key) : Prop :=
  ∃ names years months,
    name_column df = Some names ∧ year_column df = Some years ∧
    month_column df = Some months ∧
    names !! i = Some (Some k.1.1) ∧ years !! i = Some (Some k.1.2) ∧
    months !! i = Some (Some k.2).

Definition has_key (df : table) (k : key) : Prop := ∃ i, row_at df i k.

(** Two tables agree on everything the aggregation of [vars] reads: the key
    columns and the selected value columns. *)
Definition same_inputs (vars : list string) (df df' : table) : Prop :=
  name_column df = name_column df' ∧ year_column df = year_column df' ∧
  month_column df = month_column df' ∧
  ∀ v, v ∈ vars → value_columns df !! v = value_columns df' !! v.




(** The table the script builds from the mixed inputs. *)
Definition mixed_monthly : list dated :=
  [ {| r_key := ("A"%string, 2021, 1);
       r_vals := [Some (1235 # 10000); Some (-99990000 # 10000); Some (123456 # 10000);
                  None; None; None];
       r_date := {| d_year := 2021; d_month := 1; d_day := 1 |} |};
    {| r_key := ("B"%string, 2020, 5);
       r_vals := [None; None; None; Some (15000 # 10000); None; Some (2905000 # 10000)];
       r_date := {| d_year := 2020; d_month := 5; d_day := 1 |} |};
    {| r_key := ("X"%string, 2020, 2);
       r_vals := [Some (5000 # 10000); Some (2500 # 10000); Some (500000 # 10000);
                  None; Some (3333 # 10000); Some (3000000 # 10000)];
       r_date := {| d_year := 2020; d_month := 2; d_day := 1 |} |};
    {| r_key := ("X"%string, 2020, 3);
       r_vals := [None; None; None; None; None; None];
       r_date := {| d_year := 2020; d_month := 3; d_day := 1 |} |} ].

(** An 8-day row whose month is 13. *)
Definition bad_month_8 : table :=
  make_table [Some "X"%string] [Some "2020-02-10"%string] [Some 2020] [Some 13]
    [("LAI"%string, [None]); ("FAPAR"%string, [None]); ("LST"%string, [Some 300%Q])].

(** The rows of [sentinel_16] with other dates and one more column. *)
Definition sentinel_16_annotated : table :=
  make_table [Some "X"; Some "X"]%string [Some "2020-02-03"%string; None]
    [Some 2020; Some 2020] [Some 2; Some 2]
    [("NDVI"%string, [Some sentinel; Some 0.5%Q]); ("EVI"%string, [None; None]);
     ("VCI"%string, [None; None]); ("QA"%string, [Some 1%Q; Some 0%Q])].



(** * Properties *)

(** ** Rounding *)

Lemma rint_proper (x y : Q) : (x == y)%Q → rint x = rint y.
Proof.
  intros H. unfold rint. rewrite (Qfloor_comp x y H).
  assert (x - inject_Z (Qfloor y) == y - inject_Z (Qfloor y))%Q as -> by (by rewrite H).
  done.
Qed.

Lemma rint_inject_Z (k : Z) : rint (inject_Z k) = k.
Proof.
  unfold rint. rewrite Qfloor_Z.
  assert (inject_Z k - inject_Z k == 0)%Q as -> by ring.
  done.
Qed.

(** [rint] returns an integer nearest to its argument. *)
Lemma rint_nearest (x : Q) :
  (x - (1 # 2) <= inject_Z (rint x) <= x + (1 # 2))%Q.
Proof.
  unfold rint. pose proof (Qfloor_le x) as Hlo. pose proof (Qlt_floor x) as Hhi.
  rewrite inject_Z_plus in Hhi. change (inject_Z 1) with 1%Q in Hhi.
  destruct (x - inject_Z (Qfloor x) ?= 1 # 2)%Q eqn:Hc.
  - apply Qeq_alt in Hc.
    destruct (Z.even (Qfloor x)); rewrite ?inject_Z_plus;
      change (inject_Z 1) with 1%Q; lra.
  - apply Qlt_alt in Hc. lra.
  - apply Qgt_alt in Hc. rewrite inject_Z_plus. change (inject_Z 1) with 1%Q. lra.
Qed.

Lemma round4_scaled (x : Q) : (round4 x * 10000 == inject_Z (rint (x * 10000)))%Q.
Proof. unfold round4. field. Qed.

Lemma round4_idempotent (x : Q) : round4 (round4 x) = round4 x.
Proof.
  unfold round4 at 1. rewrite (rint_proper _ _ (round4_scaled x)).
  by rewrite rint_inject_Z.
Qed.

(** Rounding moves a value by at most half a unit of the fourth decimal. *)
Lemma round4_close (x : Q) : (x - (1 # 20000) <= round4 x <= x + (1 # 20000))%Q.
Proof.
  pose proof (rint_nearest (x * 10000)) as H. pose proof (round4_scaled x) as Hs.
  lra.
Qed.

(** ** Grouping *)




Lemma observe_lookup (nv : nat) (m : gmap key (list acc)) (rows : list obs) (k : key) :
  foldl (observe nv) m rows !! k = observed nv (m !! k) (group_rows k rows).
Proof.
  unfold group_rows. revert m. induction rows as [|r rows IH]; intros m; simpl; [done|].
  rewrite IH. unfold observe. rewrite filter_cons.
  destruct (decide (obs_key r = Some k)) as [Hk|Hk].
  - rewrite Hk, lookup_insert_eq. unfold observed, accumulate. simpl.
    by destruct (filter _ rows).
  - destruct (obs_key r) as [k'|]; [|done].
    rewrite lookup_insert_ne; [done | congruence].
Qed.

Lemma group_mean_elem (nv : nat) (rows : list obs) (g : keyed) :
  g ∈ group_mean nv rows ↔
  ∃ accs, foldl (observe nv) ∅ rows !! k_key g = Some accs ∧ k_vals g = finish <$> accs.
Proof.
  unfold group_mean. rewrite merge_sort_Permutation, list_elem_of_fmap. split.
  - intros [[k accs] [-> H]]. apply elem_of_map_to_list in H. by exists accs.
  - intros (accs & H & Hv). exists (k_key g, accs). split.
    + destruct g as [k vs]. simpl in *. by rewrite Hv.
    + by apply elem_of_map_to_list.
Qed.

Lemma group_mean_keys (nv : nat) (rows : list obs) (k : key) :
  k ∈ k_key <$> group_mean nv rows ↔ group_rows k rows ≠ [].
Proof.
  rewrite list_elem_of_fmap. split.
  - intros (g & -> & (accs & H & _)%group_mean_elem).
    rewrite observe_lookup, lookup_empty in H. intros Hnil. by rewrite Hnil in H.
  - intros Hne.
    exists {| k_key := k;
              k_vals := finish <$> accumulate (replicate nv acc0) (group_rows k rows) |}.
    split; [done|]. apply group_mean_elem. eexists. split; [|done]. simpl.
    rewrite observe_lookup, lookup_empty. by destruct (group_rows k rows).
Qed.

Lemma group_mean_NoDup (nv : nat) (rows : list obs) : NoDup (k_key <$> group_mean nv rows).
Proof.
  unfold group_mean. rewrite merge_sort_Permutation, <- list_fmap_compose.
  apply NoDup_fst_map_to_list.
Qed.


Lemma accumulate_length (accs : list acc) (grp : list obs) :
  Forall (λ r, length (obs_vals r) = length accs) grp →
  length (accumulate accs grp) = length accs.
Proof.
  unfold accumulate. revert accs. induction grp as [|r grp IH]; intros accs Hlen; [done|].
  apply Forall_cons in Hlen as [Hr Hlen]. simpl.
  assert (length (zip_with add_obs accs (obs_vals r)) = length accs) as Hz
    by (by apply length_zip_with_l_eq).
  rewrite IH; [done|]. by rewrite Hz.
Qed.

Lemma group_mean_length (nv : nat) (rows : list obs) :
  Forall (λ r, length (obs_vals r) = nv) rows →
  Forall (λ g, length (k_vals g) = nv) (group_mean nv rows).
Proof.
  intros Hlen. apply Forall_forall. intros g (accs & H & ->)%group_mean_elem.
  rewrite observe_lookup, lookup_empty in H. unfold observed in H.
  destruct (group_rows (k_key g) rows) as [|r grp] eqn:Hgrp; [done|].
  injection H as <-. rewrite length_fmap, accumulate_length; rewrite length_replicate; [done|].
  rewrite <- Hgrp. unfold group_rows. apply Forall_forall.
  intros x [_ Hx]%list_elem_of_filter. rewrite Forall_forall in Hlen. by apply Hlen.
Qed.

(** ** Lists of results *)

Lemma mapM_Ok {A B} (f : A → result B) (l : list A) (k : list B) :
  mapM f l = Ok k ↔ Forall2 (λ x y, f x = Ok y) l k.
Proof.
  revert k. induction l as [|x l IH]; intros k; simpl.
  - split; [intros [= <-]; constructor | by inversion 1].
  - split.
    + destruct (f x) as [y|e] eqn:Hx; simpl; [|done].
      destruct (mapM f l) as [k'|e] eqn:Hl; simpl; [|done].
      intros [= <-]. constructor; [done | by apply IH].
    + inversion 1 as [|? y ? k' Hx Hl]; subst. rewrite Hx. simpl.
      apply IH in Hl. rewrite Hl. done.
Qed.

Lemma mapM_Raise {A B} (f : A → result B) (l : list A) (e : exn) :
  mapM f l = Raise e → ∃ x, x ∈ l ∧ f x = Raise e.
Proof.
  induction l as [|x l IH]; simpl; [done|].
  destruct (f x) as [y|e'] eqn:Hx; simpl.
  - destruct (mapM f l) as [k'|e'] eqn:Hl; simpl; [done|].
    intros [= ->]. destruct IH as (x' & Hin & Hx'); [done|].
    exists x'. split; [by right | done].
  - intros [= ->]. exists x. split; [by left | done].
Qed.

Lemma mapM_all_Ok {A B} (f : A → result B) (l : list A) :
  Forall (λ x, is_Ok (f x)) l → is_Ok (mapM f l).
Proof.
  induction 1 as [|x l Hx _ IH]; simpl; [done|].
  destruct (f x); [|done]. simpl. by destruct (mapM f l).
Qed.

Lemma mapM_Ok_elem {A B} (f : A → result B) (l : list A) (k : list B) (x : A) :
  mapM f l = Ok k → x ∈ l → ∃ y, f x = Ok y.
Proof.
  intros H%mapM_Ok Hx. induction H as [|x' y l k Hy _ IH]; [by apply not_elem_of_nil in Hx|].
  apply elem_of_cons in Hx as [->|Hx]; eauto.
Qed.

(** ** Selecting the grouped columns *)

Lemma rows_of_length names years months (cols : list (list (option Q))) :
  Forall (λ r, length (obs_vals r) = length cols) (rows_of names years months cols).
Proof.
  apply Forall_forall. intros r (i & k & -> & _)%elem_of_lookup_imap.
  simpl. by rewrite length_fmap.
Qed.

Lemma groupby_select_length (vars : list string) (df : table) (rows : list obs) :
  groupby_select vars df = Ok rows →
  Forall (λ r, length (obs_vals r) = length vars) rows.
Proof.
  unfold groupby_select.
  destruct (name_column df); [|done]. destruct (year_column df); [|done].
  destruct (month_column df); [|done]. simpl.
  destruct (mapM _ vars) as [cols|] eqn:Hc; [|done]. simpl. intros [= <-].
  apply mapM_Ok, Forall2_length in Hc. rewrite Hc. apply rows_of_length.
Qed.

(** ** The outer join *)

Lemma merge_outer_elem (nl nr : nat) (L R : list keyed) (x : keyed) :
  x ∈ merge_outer nl nr L R ↔ x ∈ L ≫= join_left nr R ∨ x ∈ right_only nl L R.
Proof. unfold merge_outer. by rewrite merge_sort_Permutation, elem_of_app. Qed.

Lemma filter_key_absent (R : list keyed) (k : key) :
  k ∉ k_key <$> R → filter (λ r, k_key r = k) R = [].
Proof.
  intros Hk. induction R as [|r R IH]; [done|].
  rewrite fmap_cons, not_elem_of_cons in Hk. destruct Hk as [Hne Hk].
  rewrite filter_cons_False by done. by apply IH.
Qed.

Lemma filter_key_unique (R : list keyed) (k : key) :
  NoDup (k_key <$> R) → (length (filter (λ r, k_key r = k) R) ≤ 1)%nat.
Proof.
  induction R as [|r R IH]; [simpl; lia|].
  rewrite fmap_cons, NoDup_cons. intros [Hr HR]. rewrite filter_cons.
  destruct (decide (k_key r = k)) as [<-|]; [|by apply IH].
  rewrite filter_key_absent by done. simpl. lia.
Qed.

Lemma join_left_key (nr : nat) (R : list keyed) (l x : keyed) :
  x ∈ join_left nr R l → k_key x = k_key l.
Proof.
  unfold join_left. destruct (filter _ R) as [|r rs].
  - by intros ->%list_elem_of_singleton.
  - by intros (r' & -> & _)%list_elem_of_fmap.
Qed.

Lemma join_left_keys (nr : nat) (R : list keyed) (l : keyed) :
  NoDup (k_key <$> R) → k_key <$> join_left nr R l = [k_key l].
Proof.
  intros HR. pose proof (filter_key_unique R (k_key l) HR) as Hlen.
  unfold join_left. destruct (filter _ R) as [|r [|r' rs]]; [done..|].
  simpl in Hlen. lia.
Qed.

Lemma merge_outer_NoDup (nl nr : nat) (L R : list keyed) :
  NoDup (k_key <$> L) → NoDup (k_key <$> R) →
  NoDup (k_key <$> merge_outer nl nr L R).
Proof.
  intros HL HR. unfold merge_outer. rewrite merge_sort_Permutation, fmap_app.
  assert (k_key <$> (L ≫= join_left nr R) = k_key <$> L) as ->.
  { clear HL. induction L as [|l L IH]; [done|].
    rewrite bind_cons, fmap_app, IH, join_left_keys by done. done. }
  assert (k_key <$> right_only nl L R = filter (λ k, k ∉ k_key <$> L) (k_key <$> R)) as ->.
  { unfold right_only. rewrite <- list_fmap_compose. clear HR.
    induction R as [|r R IH]; [done|].
    rewrite fmap_cons, !filter_cons. destruct (decide (k_key r ∉ k_key <$> L)).
    - rewrite fmap_cons. simpl. by rewrite IH.
    - done. }
  apply NoDup_app. split; [done|]. split; [|by apply NoDup_filter].
  intros k Hk [Hk' _]%list_elem_of_filter. done.
Qed.

Lemma merge_outer_left_only (nl nr : nat) (L R : list keyed) (l : keyed) :
  l ∈ L → k_key l ∉ k_key <$> R →
  {| k_key := k_key l; k_vals := k_vals l ++ replicate nr None |} ∈ merge_outer nl nr L R.
Proof.
  intros Hl Hk. apply merge_outer_elem. left. apply list_elem_of_bind.
  exists l. split; [|done]. unfold join_left.
  rewrite filter_key_absent by done. by apply list_elem_of_singleton.
Qed.

Lemma merge_outer_right_only (nl nr : nat) (L R : list keyed) (r : keyed) :
  r ∈ R → k_key r ∉ k_key <$> L →
  {| k_key := k_key r; k_vals := replicate nl None ++ k_vals r |} ∈ merge_outer nl nr L R.
Proof.
  intros Hr Hk. apply merge_outer_elem. right. unfold right_only.
  apply list_elem_of_fmap. exists r. split; [done|]. by apply list_elem_of_filter.
Qed.

Lemma merge_outer_length (nl nr : nat) (L R : list keyed) :
  Forall (λ g, length (k_vals g) = nl) L →
  Forall (λ g, length (k_vals g) = nr) R →
  Forall (λ g, length (k_vals g) = (nl + nr)%nat) (merge_outer nl nr L R).
Proof.
  rewrite !Forall_forall. intros HL HR x [Hx|Hx]%merge_outer_elem.
  - apply list_elem_of_bind in Hx as (l & Hx & Hl). unfold join_left in Hx.
    destruct (filter _ R) as [|r rs] eqn:Hf.
    + apply list_elem_of_singleton in Hx as ->. simpl.
      rewrite length_app, length_replicate, (HL l Hl). done.
    + apply list_elem_of_fmap in Hx as (r' & -> & Hr'). simpl.
      assert (r' ∈ R) as Hin.
      { assert (r' ∈ filter (λ r0, k_key r0 = k_key l) R) as Hin' by (by rewrite Hf).
        by apply list_elem_of_filter in Hin' as [_ ?]. }
      rewrite length_app, (HL l Hl), (HR r' Hin). done.
  - unfold right_only in Hx. apply list_elem_of_fmap in Hx as (r & -> & [_ Hr]%list_elem_of_filter).
    simpl. rewrite length_app, length_replicate, (HR r Hr). done.
Qed.

(** ** The stages of the script *)

Lemma add_date_Ok (r : keyed) (d : dated) :
  add_date r = Ok d →
  r_key d = k_key r ∧ r_vals d = k_vals r ∧
  r_date d = {| d_year := (k_key r).1.2; d_month := (k_key r).2; d_day := 1 |}.
Proof.
  unfold add_date, assemble_date. destruct (month_ok _ _); [|done].
  by intros [= <-].
Qed.

Lemma add_dates_Ok (l : list keyed) (ds : list dated) :
  mapM add_date l = Ok ds →
  r_key <$> ds = k_key <$> l ∧ r_vals <$> ds = k_vals <$> l ∧
  Forall (λ d, r_date d = {| d_year := (r_key d).1.2; d_month := (r_key d).2; d_day := 1 |}) ds.
Proof.
  intros H%mapM_Ok. induction H as [|r d l ds Hd _ IH]; [done|].
  destruct IH as (IH1 & IH2 & IH3). apply add_date_Ok in Hd as (Hk & Hv & Hd).
  rewrite !fmap_cons, IH1, IH2, Hk, Hv. repeat split. constructor; [|done].
  by rewrite Hd, Hk.
Qed.

Section ScriptFacts.
Variable parse_date : string → option date.

Lemma to_datetime_Ok (column : list (option string)) :
  (∀ s, Some s ∈ column → is_Some (parse_date s)) → is_Ok (to_datetime parse_date column).
Proof.
  intros H. apply mapM_all_Ok, Forall_forall. intros [s|] Hs; [|done].
  by destruct (H s Hs) as [d ->].
Qed.

Lemma convert_date_Ok (df : table) (column : list (option string)) :
  date_column df = Some column →
  (∀ s, Some s ∈ column → is_Some (parse_date s)) →
  ∃ x, convert_date parse_date df = Ok x.
Proof.
  intros Hc H%to_datetime_Ok. unfold convert_date. rewrite Hc.
  cbn [getitem mbind result_bind].
  destruct (to_datetime parse_date column); [by eexists | done].
Qed.

Lemma convert_date_cases (df : table) :
  match convert_date parse_date df with
  | Ok _ => is_Some (date_column df) ∧ ¬ bad_date parse_date df
  | Raise (KeyError _) => date_column df = None
  | Raise (DateParseError _) => is_Some (date_column df) ∧ bad_date parse_date df
  | Raise _ => False
  end.
Proof.
  unfold convert_date, bad_date. destruct (date_column df) as [column|]; simpl; [|done].
  destruct (to_datetime parse_date column) as [ds|e] eqn:H.
  - split; [done|]. intros (column' & s & [= <-] & Hs & Hp).
    destruct (mapM_Ok_elem _ _ _ _ H Hs) as [d Hd]. by rewrite Hp in Hd.
  - apply mapM_Raise in H as ([s|] & Hs & Hx); [|done].
    destruct (parse_date s) eqn:Hp; [done|]. injection Hx as <-.
    split; [done|]. by exists column, s.
Qed.

Lemma groupby_mean_cases (vars : list string) (df : table) :
  match groupby_mean vars df with
  | Ok m =>
      (∃ rows, groupby_select vars df = Ok rows ∧ m = group_mean (length vars) rows) ∧
      is_Some (name_column df) ∧ is_Some (year_column df) ∧ is_Some (month_column df) ∧
      ∀ v, v ∈ vars → is_Some (value_columns df !! v)
  | Raise (KeyError _) =>
      name_column df = None ∨ year_column df = None ∨ month_column df = None ∨
      ∃ v, v ∈ vars ∧ value_columns df !! v = None
  | Raise _ => False
  end.
Proof.
  unfold groupby_mean, groupby_select.
  destruct (name_column df); simpl; [|by left].
  destruct (year_column df); simpl; [|by right; left].
  destruct (month_column df); simpl; [|by right; right; left].
  destruct (mapM _ vars) as [cols|e] eqn:Hc; simpl.
  - split; [by eexists|]. repeat split; try done.
    intros v Hv. destruct (mapM_Ok_elem _ _ _ _ Hc Hv) as [c Hg].
    by destruct (value_columns df !! v).
  - apply mapM_Raise in Hc as (v & Hv & Hg).
    destruct (value_columns df !! v) eqn:Hl; [done|]. injection Hg as <-.
    right; right; right. by exists v.
Qed.

Lemma monthly_table_cases (df_16 df_8 : table) :
  match monthly_table parse_date df_16 df_8 with
  | Ok out =>
      ∃ rows_16 rows_8 ds,
        groupby_select vars_16 df_16 = Ok rows_16 ∧
        groupby_select vars_8 df_8 = Ok rows_8 ∧
        mapM add_date (merge_outer 3 3 (group_mean 3 rows_16) (group_mean 3 rows_8)) = Ok ds ∧
        out = round_row <$> ds
  | Raise (KeyError _) =>
      date_column df_16 = None ∨
      (¬ bad_date parse_date df_16 ∧
       (date_column df_8 = None ∨
        (¬ bad_date parse_date df_8 ∧
         (column_absent vars_16 df_16 ∨ column_absent vars_8 df_8))))
  | Raise (DateParseError _) =>
      bad_date parse_date df_16 ∨ (is_Some (date_column df_16) ∧ bad_date parse_date df_8)
  | Raise (ValueError y m) =>
      ∃ rows_16 rows_8 n,
        groupby_select vars_16 df_16 = Ok rows_16 ∧
        groupby_select vars_8 df_8 = Ok rows_8 ∧
        (n, y, m) ∈ k_key <$> merge_outer 3 3 (group_mean 3 rows_16) (group_mean 3 rows_8) ∧
        month_ok y m = false
  | Raise (FileNotFoundError _) => False
  end ∧
  match monthly_table parse_date df_16 df_8 with
  | Ok _ | Raise (ValueError _ _) =>
      ¬ column_absent vars_16 df_16 ∧ ¬ column_absent vars_8 df_8 ∧
      ¬ bad_date parse_date df_16 ∧ ¬ bad_date parse_date df_8
  | _ => True
  end.
Proof.
  unfold monthly_table, column_absent.
  pose proof (convert_date_cases df_16) as H1.
  destruct (convert_date parse_date df_16) as [?|[]]; simpl; try done;
    [|by split; [left|]|by split; [left; apply H1|]].
  destruct H1 as [Hd16 Hb16].
  pose proof (convert_date_cases df_8) as H2.
  destruct (convert_date parse_date df_8) as [?|[]]; simpl; try done;
    [|by split; [right; split; [|left]|]|by split; [right; split; [|apply H2]|]].
  destruct H2 as [Hd8 Hb8].
  pose proof (groupby_mean_cases vars_16 df_16) as H3.
  destruct (groupby_mean vars_16 df_16) as [m16|[]]; simpl; try done.
  2: { split; [|done]. right. split; [done|]. right. split; [done|]. left. tauto. }
  destruct H3 as ((rows_16 & Hr16 & ->) & Hn16 & Hy16 & Hm16 & Hv16).
  pose proof (groupby_mean_cases vars_8 df_8) as H4.
  destruct (groupby_mean vars_8 df_8) as [m8|[]]; simpl; try done.
  2: { split; [|done]. right. split; [done|]. right. split; [done|]. right. tauto. }
  destruct H4 as ((rows_8 & Hr8 & ->) & Hn8 & Hy8 & Hm8 & Hv8).
  assert ((¬ (name_column df_16 = None ∨ date_column df_16 = None ∨
              year_column df_16 = None ∨ month_column df_16 = None ∨
              ∃ v, v ∈ vars_16 ∧ value_columns df_16 !! v = None)) ∧
          (¬ (name_column df_8 = None ∨ date_column df_8 = None ∨
              year_column df_8 = None ∨ month_column df_8 = None ∨
              ∃ v, v ∈ vars_8 ∧ value_columns df_8 !! v = None)) ∧
          ¬ bad_date parse_date df_16 ∧ ¬ bad_date parse_date df_8) as Hno.
  { repeat split; try done.
    - intros [H|[H|[H|[H|(v & Hv & H)]]]];
        [by rewrite H in Hn16 | by rewrite H in Hd16 | by rewrite H in Hy16
        | by rewrite H in Hm16 | specialize (Hv16 v Hv); by rewrite H in Hv16].
    - intros [H|[H|[H|[H|(v & Hv & H)]]]];
        [by rewrite H in Hn8 | by rewrite H in Hd8 | by rewrite H in Hy8
        | by rewrite H in Hm8 | specialize (Hv8 v Hv); by rewrite H in Hv8]. }
  destruct (mapM add_date _) as [ds|e] eqn:Hm; simpl.
  - split; [|done]. by exists rows_16, rows_8, ds.
  - apply mapM_Raise in Hm as (x & Hin & Hx). unfold add_date, assemble_date in Hx.
    destruct (month_ok _ _) eqn:Hok; [done|]. simpl in Hx. injection Hx as <-.
    split; [|done]. exists rows_16, rows_8, (k_key x).1.1.
    split; [done|]. split; [done|]. split; [|done].
    apply list_elem_of_fmap. exists x. split; [|done].
    by destruct x as [[[? ?] ?] ?].
Qed.
End ScriptFacts.

Lemma main_cases (parse_date : string → option date) (fs : store) :
  match csv_files fs !! file_16day, csv_files fs !! file_8day with
  | None, _ =>
      main parse_date fs = (Raise (FileNotFoundError file_16day), makedirs output_dir fs)
  | Some _, None =>
      main parse_date fs = (Raise (FileNotFoundError file_8day), makedirs output_dir fs)
  | Some df_16, Some df_8 =>
      main parse_date fs =
        match monthly_table parse_date df_16 df_8 with
        | Ok out => (Ok printed, write_excel output_file (to_sheet out) (makedirs output_dir fs))
        | Raise e => (Raise e, makedirs output_dir fs)
        end
  end.
Proof.
  unfold main, load_and_aggregate, read_csv.
  change (csv_files (makedirs output_dir fs)) with (csv_files fs).
  destruct (csv_files fs !! file_16day); [|done].
  destruct (csv_files fs !! file_8day); done.
Qed.


(** ** Order of the rows *)

#[global] Instance key_le_total : Total key_le.
Proof.
  intros [[n1 y1] m1] [[n2 y2] m2]. unfold key_le. simpl.
  destruct (decide (n1 = n2)) as [->|Hn].
  - assert (y1 < y2 ∨ y1 = y2 ∨ y2 < y1) as [?|[->|?]] by lia; [tauto| |tauto].
    destruct (total Z.le m1 m2); tauto.
  - destruct (total String.le n1 n2); [left | right]; left; split; congruence.
Qed.

#[global] Instance keyed_le_total : Total keyed_le.
Proof. intros r1 r2. apply (total key_le). Qed.

Lemma group_mean_sorted (nv : nat) (rows : list obs) : Sorted keyed_le (group_mean nv rows).
Proof. apply (Sorted_merge_sort keyed_le). Qed.


(** ** Runs that succeed *)

Lemma rows_of_key names years months (cols : list (list (option Q))) (r : obs) (k : key) :
  r ∈ rows_of names years months cols → obs_key r = Some k →
  ∃ i, years !! i = Some (Some k.1.2) ∧ months !! i = Some (Some k.2).
Proof.
  intros (i & o & -> & Hi)%elem_of_lookup_imap Hk. simpl in Hk. subst o.
  apply lookup_zip_with_Some in Hi as (n & [y m] & Hmk & _ & Hz).
  apply lookup_zip_with_Some in Hz as (y' & m' & [= <- <-] & Hy & Hm).
  unfold make_key in Hmk. destruct n as [n|], y as [y|], m as [m|]; simplify_eq/=.
  by exists i.
Qed.

Lemma merge_outer_keys (nl nr : nat) (L R : list keyed) (k : key) :
  k ∈ k_key <$> merge_outer nl nr L R → k ∈ k_key <$> L ∨ k ∈ k_key <$> R.
Proof.
  intros (x & -> & [Hx|Hx]%merge_outer_elem)%list_elem_of_fmap.
  - apply list_elem_of_bind in Hx as (l & Hx & Hl). apply join_left_key in Hx as ->.
    left. by apply list_elem_of_fmap_2.
  - unfold right_only in Hx.
    apply list_elem_of_fmap in Hx as (r & -> & [_ Hr]%list_elem_of_filter).
    right. simpl. by apply list_elem_of_fmap_2.
Qed.

Lemma group_mean_month_ok (vars : list string) (df : table) (rows : list obs) (k : key) :
  groupby_select vars df = Ok rows → months_ok df →
  k ∈ k_key <$> group_mean (length vars) rows → month_ok k.1.2 k.2.
Proof.
  intros Hsel Hok Hk. apply group_mean_keys in Hk.
  assert (∃ r, r ∈ rows ∧ obs_key r = Some k) as (r & Hr & Hrk).
  { unfold group_rows in Hk. destruct (filter _ rows) as [|r grp] eqn:Hf; [done|].
    exists r. assert (r ∈ filter (λ r, obs_key r = Some k) rows) as Hr
      by (rewrite Hf; by left).
    apply list_elem_of_filter in Hr. tauto. }
  unfold groupby_select in Hsel.
  destruct (name_column df) as [names|]; [|done].
  destruct (year_column df) as [years|] eqn:Hy; [|done].
  destruct (month_column df) as [months|] eqn:Hm; [|done]. simpl in Hsel.
  destruct (mapM _ vars) as [cols|]; [|done]. simpl in Hsel. injection Hsel as <-.
  destruct (rows_of_key _ _ _ _ _ _ Hr Hrk) as (i & Hiy & Him).
  by apply (Hok years months i).
Qed.

Section Success.
Variable parse_date : string → option date.

(** X1: with both files there, every column present, every date readable
    and every month within range, the run succeeds: it prints its two lines
    and writes the sheet of the monthly table. *)
Lemma main_succeeds (fs : store) (df_16 df_8 : table) :
  loaded fs df_16 df_8 →
  ¬ column_absent vars_16 df_16 → ¬ column_absent vars_8 df_8 →
  ¬ bad_date parse_date df_16 → ¬ bad_date parse_date df_8 →
  months_ok df_16 → months_ok df_8 →
  ∃ out, monthly_table parse_date df_16 df_8 = Ok out ∧
         main parse_date fs =
           (Ok printed, write_excel output_file (to_sheet out) (makedirs output_dir fs)).
Proof.
  intros [H16 H8] Ha16 Ha8 Hb16 Hb8 Hm16 Hm8.
  pose proof (main_cases parse_date fs) as Hmain. rewrite H16, H8 in Hmain.
  pose proof (monthly_table_cases parse_date df_16 df_8) as [Hc _].
  destruct (monthly_table parse_date df_16 df_8) as [out|[p|c|s|y m]].
  - by exists out.
  - done.
  - exfalso. unfold column_absent in Ha16, Ha8. tauto.
  - exfalso. tauto.
  - exfalso. destruct Hc as (rows_16 & rows_8 & n & Hr16 & Hr8 & Hk & Hno).
    apply merge_outer_keys in Hk as [Hk|Hk].
    + pose proof (group_mean_month_ok vars_16 df_16 rows_16 _ Hr16 Hm16 Hk) as Hok.
      simpl in Hok. by rewrite Hno in Hok.
    + pose proof (group_mean_month_ok vars_8 df_8 rows_8 _ Hr8 Hm8 Hk) as Hok.
      simpl in Hok. by rewrite Hno in Hok.
Qed.
End Success.

(** * The claims *)

(** C1 (defect): the aggregation step does not leave the sentinel out.  On two
    February rows with NDVI -9999 and 0.5 the monthly NDVI is -4999.25, the
    mean of both, where the mean of the valid values is 0.5. *)
Theorem sentinel_enters_monthly_mean :
  ∃ m d,
    groupby_mean vars_16 sentinel_16 =
      Ok [{| k_key := ("X"%string, 2020, 2); k_vals := [Some m; None; None] |}] ∧
    mean_of_valid [Some sentinel; Some 0.5%Q] = Some d ∧
    (m == -4999.25)%Q ∧ (d == 0.5)%Q.
Proof. eexists _, _. split; [|split]; [vm_compute; reflexivity..|]. split; reflexivity. Qed.

(** C2 (defect): a month whose NDVI readings are all -9999 gets NDVI -9999 in
    the sheet, not an empty cell, although no valid value exists; the run
    itself succeeds. *)
Theorem all_sentinel_month_not_missing :
  ∃ q,
    main iso_date (store_of all_sentinel_16 plain_8) =
      (Ok printed,
       write_excel output_file
         {| header := ["name"; "year"; "month"; "NDVI"; "EVI"; "VCI"; "LAI"; "FAPAR";
                       "LST"; "date"]%string;
            body := [[Text "X"; Int 2020; Int 2; Float q; Blank; Blank; Blank; Blank;
                      Float (3000000 # 10000);
                      Date {| d_year := 2020; d_month := 2; d_day := 1 |}]] |}
         (makedirs output_dir (store_of all_sentinel_16 plain_8))) ∧
    (q == sentinel)%Q ∧
    mean_of_valid [Some sentinel; Some sentinel] = None.
Proof. eexists. split; [vm_compute; reflexivity|]. split; reflexivity. Qed.

(** C3: the key (name, year, month) occurs once in each monthly aggregate and
    once in the merged table the script goes on with. *)
Theorem keys_unique (parse_date : string → option date) (df_16 df_8 : table) :
  (∀ m, groupby_mean vars_16 df_16 = Ok m → NoDup (k_key <$> m)) ∧
  (∀ m, groupby_mean vars_8 df_8 = Ok m → NoDup (k_key <$> m)) ∧
  (∀ m_16 m_8, groupby_mean vars_16 df_16 = Ok m_16 → groupby_mean vars_8 df_8 = Ok m_8 →
     NoDup (k_key <$> merge_outer (length vars_16) (length vars_8) m_16 m_8)) ∧
  (∀ out, monthly_table parse_date df_16 df_8 = Ok out → NoDup (r_key <$> out)).
Proof.
  assert (∀ vars df m, groupby_mean vars df = Ok m → NoDup (k_key <$> m)) as Hg.
  { intros vars df m H. pose proof (groupby_mean_cases vars df) as Hc. rewrite H in Hc.
    destruct Hc as ((rows & _ & ->) & _). apply group_mean_NoDup. }
  split; [apply Hg|]. split; [apply Hg|]. split.
  - intros m_16 m_8 H16 H8. apply merge_outer_NoDup; eauto.
  - intros out H. pose proof (monthly_table_cases parse_date df_16 df_8) as [Hc _].
    rewrite H in Hc. destruct Hc as (rows_16 & rows_8 & ds & _ & _ & Hd & ->).
    apply add_dates_Ok in Hd as (Hk & _ & _).
    rewrite <- list_fmap_compose.
    change (r_key ∘ round_row) with r_key. rewrite Hk.
    apply merge_outer_NoDup; apply group_mean_NoDup.
Qed.

Lemma keys_unique_witness :
  ∃ out, monthly_table iso_date mixed_16 mixed_8 = Ok out ∧ NoDup (r_key <$> out).
Proof.
  eexists. split; [vm_compute; reflexivity|].
  apply (proj2 (proj2 (proj2 (keys_unique iso_date mixed_16 mixed_8)))).
  vm_compute; reflexivity.
Defined.

(** C4: a row whose key is in only one of the two monthly aggregates is kept
    by the outer join, the value columns of the other aggregate being NaN. *)
Theorem outer_join_keeps_unmatched (nl nr : nat) (left right : list keyed) :
  (∀ l, l ∈ left → k_key l ∉ k_key <$> right →
     {| k_key := k_key l; k_vals := k_vals l ++ replicate nr None |}
       ∈ merge_outer nl nr left right) ∧
  (∀ r, r ∈ right → k_key r ∉ k_key <$> left →
     {| k_key := k_key r; k_vals := replicate nl None ++ k_vals r |}
       ∈ merge_outer nl nr left right).
Proof.
  split.
  - intros l. apply merge_outer_left_only.
  - intros r. apply merge_outer_right_only.
Qed.

Lemma outer_join_keeps_unmatched_witness :
  let left := [{| k_key := ("X"%string, 2020, 3); k_vals := [Some 1%Q; None; None] |}] in
  let right := [{| k_key := ("B"%string, 2020, 5); k_vals := [None; None; Some 290%Q] |}] in
  {| k_key := ("X"%string, 2020, 3); k_vals := [Some 1%Q; None; None; None; None; None] |}
    ∈ merge_outer 3 3 left right ∧
  {| k_key := ("B"%string, 2020, 5); k_vals := [None; None; None; None; None; Some 290%Q] |}
    ∈ merge_outer 3 3 left right.
Proof.
  intros left right. split.
  - apply (proj1 (outer_join_keeps_unmatched 3 3 left right) _ ltac:(by left)).
    simpl. by intros [[=]|[]%not_elem_of_nil]%elem_of_cons.
  - apply (proj2 (outer_join_keeps_unmatched 3 3 left right) _ ltac:(by left)).
    simpl. by intros [[=]|[]%not_elem_of_nil]%elem_of_cons.
Defined.



(** C7: rounding to four decimals is idempotent, on numbers and on NaN. *)
Theorem rounding_idempotent (v : option Q) : round_value (round_value v) = round_value v.
Proof. destruct v as [x|]; simpl; [|done]. by rewrite round4_idempotent. Qed.


(** A sentinel reading is a number like any other for the mean. *)
Example nanmean_keeps_sentinel :
  ∃ m, nanmean [Some sentinel; None; Some 1%Q] = Some m ∧ (m == -4999)%Q.
Proof. eexists. split; [vm_compute; reflexivity|]. reflexivity. Qed.

Lemma four_decimals_round (v : option Q) : four_decimals (value_cell (round_value v)).
Proof. destruct v as [x|]; simpl; [|done]. by exists (rint (x * 10000)). Qed.

(** C6: two February 2020 rows of station X with NDVI 0.40 and 0.60 and one
    8-day row of the same month with LST 300.0 and no LAI give one sheet row:
    X, 2020, 2, NDVI 0.5000, LAI empty, LST 300.0000, date 2020-02-01. *)
Theorem end_to_end_example (parse_date : string → option date) (fs : store)
    (d1 d2 d3 : option string) (e1 e2 v1 v2 f : option Q) :
  loaded fs (february_16 d1 d2 [Some 0.4%Q; Some 0.6%Q] [e1; e2] [v1; v2])
            (february_8 d3 None f (Some 300.0%Q)) →
  (∀ s, Some s ∈ [d1; d2; d3] → is_Some (parse_date s)) →
  ∃ evi vci fapar,
    main parse_date fs =
      (Ok printed,
       write_excel output_file
         {| header := ["name"; "year"; "month"; "NDVI"; "EVI"; "VCI"; "LAI"; "FAPAR";
                       "LST"; "date"]%string;
            body := [[Text "X"; Int 2020; Int 2; Float (5000 # 10000); evi; vci; Blank;
                      fapar; Float (3000000 # 10000);
                      Date {| d_year := 2020; d_month := 2; d_day := 1 |}]] |}
         (makedirs output_dir fs)).
Proof.
  intros [H16 H8] Hd.
  assert (∃ x, convert_date parse_date
                 (february_16 d1 d2 [Some 0.4%Q; Some 0.6%Q] [e1; e2] [v1; v2]) = Ok x)
    as [x16 Hc16].
  { apply convert_date_Ok with (column := [d1; d2]); [done|].
    intros s Hs. apply Hd. apply (proj2 (elem_of_app [d1; d2] [d3] (Some s))). by left. }
  assert (∃ x, convert_date parse_date (february_8 d3 None f (Some 300.0%Q)) = Ok x)
    as [x8 Hc8].
  { apply convert_date_Ok with (column := [d3]); [done|].
    intros s Hs. apply Hd. apply (proj2 (elem_of_app [d1; d2] [d3] (Some s))). by right. }
  eexists _, _, _. unfold main, load_and_aggregate, read_csv.
  change (csv_files (makedirs output_dir fs)) with (csv_files fs).
  rewrite H16, H8. generalize (makedirs output_dir fs). intros fs1.
  cbn [mbind result_bind]. unfold monthly_table. rewrite Hc16, Hc8.
  cbn [mbind result_bind]. vm_compute. reflexivity.
Qed.

Lemma end_to_end_example_witness :
  let fs := store_of (february_16 (Some "2020-02-02"%string) (Some "2020-02-18"%string)
                        [Some 0.4%Q; Some 0.6%Q] [None; Some 0.3%Q] [None; None])
                     (february_8 (Some "2020-02-10"%string) None None (Some 300.0%Q)) in
  ∃ evi vci fapar,
    main iso_date fs =
      (Ok printed,
       write_excel output_file
         {| header := ["name"; "year"; "month"; "NDVI"; "EVI"; "VCI"; "LAI"; "FAPAR";
                       "LST"; "date"]%string;
            body := [[Text "X"; Int 2020; Int 2; Float (5000 # 10000); evi; vci; Blank;
                      fapar; Float (3000000 # 10000);
                      Date {| d_year := 2020; d_month := 2; d_day := 1 |}]] |}
         (makedirs output_dir fs)).
Proof.
  intros fs.
  apply (end_to_end_example iso_date fs (Some "2020-02-02"%string) (Some "2020-02-18"%string)
           (Some "2020-02-10"%string) None (Some 0.3%Q) None None None).
  - split; vm_compute; reflexivity.
  - intros s Hs.
    repeat (apply elem_of_cons in Hs as [[= ->]|Hs]; [eexists; vm_compute; reflexivity|]).
    by apply not_elem_of_nil in Hs.
Defined.




(** C9: a run that succeeds leaves one new sheet, at
    Monthly_data/MODIS_Monthly_<station>.xlsx; the directory is there, the
    CSV files are untouched; the columns are name, year, month, NDVI, EVI,
    VCI, LAI, FAPAR, LST, date, and every value cell is empty or a multiple
    of 0.0001. *)
Theorem sheet_written (parse_date : string → option date) (fs fs' : store) :
  main parse_date fs = (Ok printed, fs') →
  output_file = "Monthly_data/MODIS_Monthly_ALGER_DAR_EL_BEIDA_AG.xlsx"%string ∧
  output_dir ∈ dirs fs' ∧ csv_files fs' = csv_files fs ∧
  ∃ s, xlsx_files fs' = <[output_file := s]> (xlsx_files fs) ∧
       header s = ["name"; "year"; "month"; "NDVI"; "EVI"; "VCI"; "LAI"; "FAPAR"; "LST";
                   "date"]%string ∧
       Forall output_row (body s).
Proof.
  intros Hrun. split; [done|]. pose proof (main_cases parse_date fs) as Hm.
  destruct (csv_files fs !! file_16day) as [df_16|]; [|by rewrite Hm in Hrun].
  destruct (csv_files fs !! file_8day) as [df_8|]; [|by rewrite Hm in Hrun].
  pose proof (monthly_table_cases parse_date df_16 df_8) as [Hc _].
  destruct (monthly_table parse_date df_16 df_8) as [out|e]; [|by rewrite Hm in Hrun].
  assert (fs' = write_excel output_file (to_sheet out) (makedirs output_dir fs)) as ->
    by congruence.
  split; [simpl; apply elem_of_union; left; by apply elem_of_singleton|]. split; [done|].
  exists (to_sheet out). split; [done|]. split; [done|].
  destruct Hc as (rows_16 & rows_8 & ds & Hr16 & Hr8 & Hd & ->).
  cbn [body to_sheet].
  apply add_dates_Ok in Hd as (_ & Hv & _).
  assert (Forall (λ vs : list (option Q), length vs = 6%nat) (r_vals <$> ds)) as Hlen.
  { rewrite Hv. apply Forall_fmap.
    apply (merge_outer_length 3 3); apply (group_mean_length 3).
    - apply (groupby_select_length vars_16 df_16 rows_16 Hr16).
    - apply (groupby_select_length vars_8 df_8 rows_8 Hr8). }
  apply Forall_fmap in Hlen. rewrite <- list_fmap_compose. apply Forall_fmap.
  eapply Forall_impl; [exact Hlen|]. intros [k vs d] Hk. simpl in Hk.
  destruct vs as [|a [|b [|c [|e [|f [|g [|]]]]]]]; try done.
  unfold output_row. do 10 eexists. split; [reflexivity|].
  repeat constructor; apply four_decimals_round.
Qed.

Lemma sheet_written_witness :
  ∃ fs', main iso_date (store_of mixed_16 mixed_8) = (Ok printed, fs') ∧
    ∃ s, xlsx_files fs' = <[output_file := s]> ∅ ∧ Forall output_row (body s).
Proof.
  eexists. split; [vm_compute; reflexivity|].
  destruct (sheet_written iso_date (store_of mixed_16 mixed_8) _ ltac:(vm_compute; reflexivity))
    as (_ & _ & _ & s & Hs & _ & Hb).
  by exists s.
Defined.



(** * Further properties of the script *)

(** ** Rounding *)

Lemma rint_le (x y : Q) : (x <= y)%Q → rint x ≤ rint y.
Proof.
  intros Hxy. destruct (Z_le_gt_dec (rint x) (rint y)) as [|Hgt]; [done|]. exfalso.
  pose proof (rint_nearest x) as [_ Hx]. pose proof (rint_nearest y) as [Hy _].
  assert (inject_Z (rint y) + 1 <= inject_Z (rint x))%Q as Hstep.
  { change 1%Q with (inject_Z 1). rewrite <- inject_Z_plus, <- Zle_Qle. lia. }
  assert (x == y)%Q as Heq by lra.
  apply rint_proper in Heq. lia.
Qed.

(** X9: rounding to four decimals keeps the order of two values. *)
Theorem round4_monotone (x y : Q) : (x <= y)%Q → (round4 x <= round4 y)%Q.
Proof.
  intros Hxy. assert (rint (x * 10000) ≤ rint (y * 10000)) as H by (apply rint_le; lra).
  rewrite Zle_Qle in H. pose proof (round4_scaled x). pose proof (round4_scaled y). lra.
Qed.

Lemma round4_monotone_witness :
  (12.34565 <= 12.3457)%Q ∧ (round4 12.34565 <= round4 12.3457)%Q.
Proof.
  assert (12.34565 <= 12.3457)%Q as H by (vm_compute; discriminate).
  split; [exact H | exact (round4_monotone _ _ H)].
Defined.



(** ** Means *)







(** ** The store *)

(** X3: whatever the outcome, a run leaves the CSV files as they were, has
    the output directory made, keeps every directory and every sheet other
    than the output file; and a run that fails leaves the sheets as they
    were. *)
Theorem run_touches_only_output (parse_date : string → option date) (fs : store) :
  csv_files (main parse_date fs).2 = csv_files fs ∧
  dirs (main parse_date fs).2 = {[output_dir]} ∪ dirs fs ∧
  (∀ p, p ≠ output_file →
     xlsx_files (main parse_date fs).2 !! p = xlsx_files fs !! p) ∧
  (∀ e, (main parse_date fs).1 = Raise e →
     xlsx_files (main parse_date fs).2 = xlsx_files fs).
Proof.
  unfold main. destruct (load_and_aggregate parse_date (makedirs output_dir fs)) as [out|e];
    simpl; repeat split; try done.
  intros p Hp. by rewrite lookup_insert_ne.
Qed.

Lemma makedirs_twice (d : string) (fs : store) : makedirs d (makedirs d fs) = makedirs d fs.
Proof.
  unfold makedirs. simpl. f_equal. by rewrite (assoc_L (∪)), (idemp_L (∪)).
Qed.

Lemma main_unfold (parse_date : string → option date) (fs : store) :
  main parse_date fs =
    match load_and_aggregate parse_date fs with
    | Ok out =>
        (Ok printed, write_excel output_file (to_sheet out) (makedirs output_dir fs))
    | Raise e => (Raise e, makedirs output_dir fs)
    end.
Proof. done. Qed.

(** X4: running the script again on the store a run has left gives the same
    outcome and leaves the store as it is. *)
Theorem rerun_is_idempotent (parse_date : string → option date) (fs : store) :
  main parse_date (main parse_date fs).2 = main parse_date fs.
Proof.
  assert (∀ fs', csv_files fs' = csv_files fs →
            load_and_aggregate parse_date fs' = load_and_aggregate parse_date fs) as Hload.
  { intros fs' H. unfold load_and_aggregate, read_csv. by rewrite H. }
  rewrite (main_unfold parse_date fs).
  destruct (load_and_aggregate parse_date fs) as [out|e] eqn:Hl; cbn [snd];
    rewrite main_unfold, Hload by done.
  - f_equal. unfold write_excel, makedirs. simpl. f_equal.
    + by rewrite (assoc_L (∪)), (idemp_L (∪)).
    + by rewrite insert_insert_eq.
  - by rewrite makedirs_twice.
Qed.

(** ** Keys of the output *)

Lemma group_rows_nonempty (k : key) (rows : list obs) :
  group_rows k rows ≠ [] ↔ ∃ r, r ∈ rows ∧ obs_key r = Some k.
Proof.
  unfold group_rows. split.
  - intros Hne. destruct (filter _ rows) as [|r grp] eqn:Hf; [done|].
    exists r. assert (r ∈ filter (λ r, obs_key r = Some k) rows) as Hr
      by (rewrite Hf; by left).
    apply list_elem_of_filter in Hr. tauto.
  - intros (r & Hr & Hk) Hnil.
    assert (r ∈ filter (λ r, obs_key r = Some k) rows) as Hin
      by (by apply list_elem_of_filter).
    rewrite Hnil in Hin. by apply not_elem_of_nil in Hin.
Qed.

Lemma rows_of_has_key names years months (cols : list (list (option Q))) (k : key) :
  (∃ r, r ∈ rows_of names years months cols ∧ obs_key r = Some k) ↔
  ∃ i, names !! i = Some (Some k.1.1) ∧ years !! i = Some (Some k.1.2) ∧
       months !! i = Some (Some k.2).
Proof.
  unfold rows_of. split.
  - intros (r & (i & o & -> & Hi)%elem_of_lookup_imap & Hk). simpl in Hk. subst o.
    apply lookup_zip_with_Some in Hi as (n & [y m] & Hmk & Hn & Hz).
    apply lookup_zip_with_Some in Hz as (y' & m' & [= <- <-] & Hy & Hm).
    unfold make_key in Hmk. destruct n as [n|], y as [y|], m as [m|]; simplify_eq/=.
    by exists i.
  - intros (i & Hn & Hy & Hm). destruct k as [[n y] m]. simpl in *.
    eexists. split.
    + apply elem_of_lookup_imap. exists i, (Some (n, y, m)). split; [reflexivity|].
      apply lookup_zip_with_Some. exists (Some n), (Some y, Some m).
      split; [done|]. split; [done|].
      apply lookup_zip_with_Some. by exists (Some y), (Some m).
    + done.
Qed.

Lemma groupby_select_keys (vars : list string) (df : table) (rows : list obs) (k : key) :
  groupby_select vars df = Ok rows →
  (k ∈ k_key <$> group_mean (length vars) rows ↔ has_key df k).
Proof.
  intros Hsel. rewrite group_mean_keys, group_rows_nonempty.
  unfold groupby_select in Hsel. unfold has_key, row_at.
  destruct (name_column df) as [names|]; [|done].
  destruct (year_column df) as [years|]; [|done].
  destruct (month_column df) as [months|]; [|done]. simpl in Hsel.
  destruct (mapM _ vars) as [cols|]; [|done]. simpl in Hsel. injection Hsel as <-.
  rewrite rows_of_has_key. split.
  - intros (i & ? & ? & ?). exists i, names, years, months. done.
  - intros (i & ? & ? & ? & [= <-] & [= <-] & [= <-] & ? & ? & ?). by exists i.
Qed.

Lemma merge_outer_keys_iff (nl nr : nat) (L R : list keyed) (k : key) :
  k ∈ k_key <$> merge_outer nl nr L R ↔ k ∈ k_key <$> L ∨ k ∈ k_key <$> R.
Proof.
  split; [apply merge_outer_keys|].
  assert (∀ l, l ∈ L → k_key l ∈ k_key <$> merge_outer nl nr L R) as HL.
  { intros l Hl. unfold join_left.
    destruct (filter (λ r, k_key r = k_key l) R) as [|r rs] eqn:Hf.
    - apply list_elem_of_fmap.
      exists {| k_key := k_key l; k_vals := k_vals l ++ replicate nr None |}.
      split; [done|]. apply merge_outer_elem. left. apply list_elem_of_bind.
      exists l. split; [|done]. unfold join_left. rewrite Hf. by left.
    - apply list_elem_of_fmap.
      exists {| k_key := k_key l; k_vals := k_vals l ++ k_vals r |}.
      split; [done|]. apply merge_outer_elem. left. apply list_elem_of_bind.
      exists l. split; [|done]. unfold join_left. rewrite Hf. by left. }
  intros [(l & -> & Hl)%list_elem_of_fmap|(r & -> & Hr)%list_elem_of_fmap].
  - by apply HL.
  - destruct (decide (k_key r ∈ k_key <$> L)) as [(l & Hk & Hl)%list_elem_of_fmap|Hno].
    + rewrite Hk. by apply HL.
    + apply list_elem_of_fmap.
      exists {| k_key := k_key r; k_vals := replicate nl None ++ k_vals r |}.
      split; [done|]. by apply merge_outer_right_only.
Qed.

Lemma monthly_table_keys (parse_date : string → option date) (df_16 df_8 : table)
    (out : list dated) :
  monthly_table parse_date df_16 df_8 = Ok out →
  ∃ rows_16 rows_8,
    groupby_select vars_16 df_16 = Ok rows_16 ∧ groupby_select vars_8 df_8 = Ok rows_8 ∧
    r_key <$> out = k_key <$> merge_outer 3 3 (group_mean 3 rows_16) (group_mean 3 rows_8).
Proof.
  intros H. pose proof (monthly_table_cases parse_date df_16 df_8) as [Hc _].
  rewrite H in Hc. destruct Hc as (rows_16 & rows_8 & ds & H16 & H8 & Hd & ->).
  exists rows_16, rows_8. split; [done|]. split; [done|].
  apply add_dates_Ok in Hd as (Hk & _ & _). by rewrite <- list_fmap_compose.
Qed.

(** X6: the sheet has a row for a key exactly when some row of one of the
    two inputs carries that key with its name, year and month all present. *)
Theorem output_keys_are_input_keys (parse_date : string → option date)
    (df_16 df_8 : table) (out : list dated) (k : key) :
  monthly_table parse_date df_16 df_8 = Ok out →
  (k ∈ r_key <$> out ↔ has_key df_16 k ∨ has_key df_8 k).
Proof.
  intros (rows_16 & rows_8 & H16 & H8 & ->)%monthly_table_keys.
  rewrite merge_outer_keys_iff.
  by rewrite (groupby_select_keys vars_16 df_16 rows_16 k H16),
             (groupby_select_keys vars_8 df_8 rows_8 k H8).
Qed.


(** ** Rows matched by the join *)

Lemma NoDup_fmap_elem_inj {A B} (f : A → B) (l : list A) (x y : A) :
  NoDup (f <$> l) → x ∈ l → y ∈ l → f x = f y → x = y.
Proof.
  induction l as [|a l IH]; [by intros _ ?%not_elem_of_nil|].
  rewrite fmap_cons, NoDup_cons. intros [Ha Hl] Hx Hy Hxy.
  apply elem_of_cons in Hx as [->|Hx]; apply elem_of_cons in Hy as [->|Hy]; try done.
  - exfalso. apply Ha. rewrite Hxy. by apply list_elem_of_fmap_2.
  - exfalso. apply Ha. rewrite <- Hxy. by apply list_elem_of_fmap_2.
  - by apply IH.
Qed.

(** X7: when the keys are unique on both sides, a key present on both sides
    gives one merged row and no other: the left values followed by the right
    values. *)
Theorem matched_keys_joined (nl nr : nat) (left right : list keyed) (l r x : keyed) :
  NoDup (k_key <$> left) → NoDup (k_key <$> right) →
  l ∈ left → r ∈ right → k_key l = k_key r →
  (x ∈ merge_outer nl nr left right ∧ k_key x = k_key l ↔
   x = {| k_key := k_key l; k_vals := k_vals l ++ k_vals r |}).
Proof.
  intros HL HR Hl Hr Hk.
  assert (filter (λ r', k_key r' = k_key l) right = [r]) as Hf.
  { pose proof (filter_key_unique right (k_key l) HR) as Hlen.
    assert (r ∈ filter (λ r', k_key r' = k_key l) right) as Hin
      by (by apply list_elem_of_filter).
    destruct (filter _ right) as [|r1 [|r2 rs]]; simpl in Hlen.
    - by apply not_elem_of_nil in Hin.
    - by apply list_elem_of_singleton in Hin as ->.
    - lia. }
  assert (join_left nr right l = [{| k_key := k_key l; k_vals := k_vals l ++ k_vals r |}])
    as Hj by (unfold join_left; by rewrite Hf).
  split.
  - intros [[Hx|Hx]%merge_outer_elem Hkx].
    + apply list_elem_of_bind in Hx as (l' & Hx & Hl').
      assert (l' = l) as ->.
      { apply (NoDup_fmap_elem_inj k_key left); [done..|].
        apply join_left_key in Hx. congruence. }
      rewrite Hj in Hx. by apply list_elem_of_singleton in Hx.
    + unfold right_only in Hx.
      apply list_elem_of_fmap in Hx as (r' & -> & [Hno _]%list_elem_of_filter).
      exfalso. apply Hno. simpl in Hkx. rewrite Hkx. by apply list_elem_of_fmap_2.
  - intros ->. split; [|done]. apply merge_outer_elem. left.
    apply list_elem_of_bind. exists l. split; [|done]. rewrite Hj. by left.
Qed.

(** ** Months out of range *)

Section OutOfRange.
Variable parse_date : string → option date.

(** X2: with both files there, every column present and every date
    readable, a row whose key is complete and whose month is 0 or between 13
    and 99, in a year a timestamp can hold, makes the run fail with a
    [ValueError]; no sheet is written. *)
Theorem out_of_range_month_raises (fs : store) (df_16 df_8 : table) (k : key) :
  loaded fs df_16 df_8 →
  ¬ column_absent vars_16 df_16 → ¬ column_absent vars_8 df_8 →
  ¬ bad_date parse_date df_16 → ¬ bad_date parse_date df_8 →
  has_key df_16 k ∨ has_key df_8 k →
  1678 ≤ k.1.2 ≤ 2261 → k.2 = 0 ∨ 13 ≤ k.2 ≤ 99 →
  ∃ y m, main parse_date fs = (Raise (ValueError y m), makedirs output_dir fs) ∧
         xlsx_files (main parse_date fs).2 = xlsx_files fs.
Proof.
  intros [H16 H8] Ha16 Ha8 Hb16 Hb8 Hkey Hyear Hmonth.
  assert (month_ok k.1.2 k.2 = false) as Hbad.
  { unfold month_ok. apply bool_decide_eq_false. lia. }
  pose proof (main_cases parse_date fs) as Hmain. rewrite H16, H8 in Hmain.
  pose proof (monthly_table_cases parse_date df_16 df_8) as [Hc _].
  destruct (monthly_table parse_date df_16 df_8) as [out|[p|c|s|y m]].
  - exfalso. destruct Hc as (rows_16 & rows_8 & ds & Hr16 & Hr8 & Hd & _).
    assert (k ∈ k_key <$> merge_outer 3 3 (group_mean 3 rows_16) (group_mean 3 rows_8))
      as (x & -> & Hx)%list_elem_of_fmap.
    { apply merge_outer_keys_iff.
      destruct Hkey as [Hkey|Hkey]; [left|right].
      - by apply (groupby_select_keys vars_16 df_16).
      - by apply (groupby_select_keys vars_8 df_8). }
    destruct (mapM_Ok_elem _ _ _ _ Hd Hx) as [d Hok].
    unfold add_date, assemble_date in Hok. by rewrite Hbad in Hok.
  - done.
  - exfalso. unfold column_absent in Ha16, Ha8. tauto.
  - exfalso. tauto.
  - exists y, m. by rewrite Hmain.
Qed.
End OutOfRange.

(** ** Columns the script does not read *)

Lemma mapM_ext_elem {A B} (f g : A → result B) (l : list A) :
  (∀ x, x ∈ l → f x = g x) → mapM f l = mapM g l.
Proof.
  induction l as [|x l IH]; intros H; [done|]. simpl.
  rewrite (H x) by (by left). destruct (g x); [|done]. simpl.
  rewrite IH; [done|]. intros y Hy. apply H. by right.
Qed.

Lemma groupby_mean_same_inputs (vars : list string) (df df' : table) :
  same_inputs vars df df' → groupby_mean vars df = groupby_mean vars df'.
Proof.
  intros (Hn & Hy & Hm & Hv). unfold groupby_mean, groupby_select.
  rewrite Hn, Hy, Hm.
  rewrite (mapM_ext_elem (λ v, getitem v (value_columns df !! v))
                         (λ v, getitem v (value_columns df' !! v)));
    [done|]. intros v Hin. by rewrite (Hv v Hin).
Qed.

(** X12: the sheet depends only on the name, year and month columns and on
    the six measured columns: two pairs of inputs that agree on those, and
    whose date columns are all readable, give the same table. *)
Theorem unread_columns_ignored (parse_date : string → option date)
    (df_16 df_16' df_8 df_8' : table) :
  same_inputs vars_16 df_16 df_16' → same_inputs vars_8 df_8 df_8' →
  is_Ok (convert_date parse_date df_16) → is_Ok (convert_date parse_date df_16') →
  is_Ok (convert_date parse_date df_8) → is_Ok (convert_date parse_date df_8') →
  monthly_table parse_date df_16 df_8 = monthly_table parse_date df_16' df_8'.
Proof.
  intros S16 S8 H1 H2 H3 H4. unfold monthly_table.
  destruct (convert_date parse_date df_16); [|done].
  destruct (convert_date parse_date df_16'); [|done].
  destruct (convert_date parse_date df_8); [|done].
  destruct (convert_date parse_date df_8'); [|done].
  cbn [mbind result_bind].
  by rewrite (groupby_mean_same_inputs vars_16 df_16 df_16' S16),
             (groupby_mean_same_inputs vars_8 df_8 df_8' S8).
Qed.


(** ** Closed instances *)

Ltac columns_present :=
  let H := fresh "H" in let v := fresh "v" in let Hv := fresh "Hv" in
  intros [H|[H|[H|[H|(v & Hv & H)]]]]; try discriminate;
  repeat (apply elem_of_cons in Hv as [->|Hv]; [vm_compute in H; discriminate|]);
  by apply not_elem_of_nil in Hv.

Ltac dates_readable :=
  let c := fresh "c" in let s := fresh "s" in let Hs := fresh "Hs" in
  let Hp := fresh "Hp" in
  intros (c & s & [= <-] & Hs & Hp);
  repeat (apply elem_of_cons in Hs as [[= ->]|Hs]; [vm_compute in Hp; discriminate|]);
  by apply not_elem_of_nil in Hs.

Lemma mixed_monthly_eq : monthly_table iso_date mixed_16 mixed_8 = Ok mixed_monthly.
Proof. vm_compute; reflexivity. Qed.

Lemma sentinel_16_columns : ¬ column_absent vars_16 sentinel_16.
Proof. columns_present. Qed.

Lemma plain_8_columns : ¬ column_absent vars_8 plain_8.
Proof. columns_present. Qed.

Lemma bad_month_8_columns : ¬ column_absent vars_8 bad_month_8.
Proof. columns_present. Qed.

Lemma sentinel_16_dates : ¬ bad_date iso_date sentinel_16.
Proof. dates_readable. Qed.

Lemma plain_8_dates : ¬ bad_date iso_date plain_8.
Proof. dates_readable. Qed.

Lemma bad_month_8_dates : ¬ bad_date iso_date bad_month_8.
Proof. dates_readable. Qed.

Lemma store_of_loaded (df_16 df_8 : table) : loaded (store_of df_16 df_8) df_16 df_8.
Proof. split; vm_compute; reflexivity. Qed.

Lemma sentinel_16_months : months_ok sentinel_16.
Proof.
  intros years months i y m [= <-] [= <-] Hy Hm.
  destruct i as [|[|i]]; simpl in Hy, Hm; simplify_eq; by vm_compute.
Qed.

Lemma plain_8_months : months_ok plain_8.
Proof.
  intros years months i y m [= <-] [= <-] Hy Hm.
  destruct i as [|i]; simpl in Hy, Hm; simplify_eq; by vm_compute.
Qed.

Lemma main_succeeds_witness :
  ∃ out, monthly_table iso_date sentinel_16 plain_8 = Ok out ∧
         main iso_date (store_of sentinel_16 plain_8) =
           (Ok printed,
            write_excel output_file (to_sheet out)
              (makedirs output_dir (store_of sentinel_16 plain_8))).
Proof.
  exact (main_succeeds iso_date (store_of sentinel_16 plain_8) sentinel_16 plain_8
           (store_of_loaded _ _) sentinel_16_columns plain_8_columns
           sentinel_16_dates plain_8_dates sentinel_16_months plain_8_months).
Defined.

Lemma out_of_range_month_raises_witness :
  has_key bad_month_8 ("X"%string, 2020, 13) ∧
  ∃ y m, main iso_date (store_of sentinel_16 bad_month_8) =
           (Raise (ValueError y m), makedirs output_dir (store_of sentinel_16 bad_month_8)) ∧
         xlsx_files (main iso_date (store_of sentinel_16 bad_month_8)).2
           = xlsx_files (store_of sentinel_16 bad_month_8).
Proof.
  assert (has_key bad_month_8 ("X"%string, 2020, 13)) as Hk.
  { exists 0%nat, [Some "X"%string], [Some 2020], [Some 13]. by repeat split. }
  split; [exact Hk|].
  apply (out_of_range_month_raises iso_date (store_of sentinel_16 bad_month_8)
           sentinel_16 bad_month_8 ("X"%string, 2020, 13)
           (store_of_loaded _ _) sentinel_16_columns bad_month_8_columns
           sentinel_16_dates bad_month_8_dates (or_intror Hk)).
  - simpl. lia.
  - right. simpl. lia.
Defined.


Lemma output_keys_are_input_keys_witness :
  monthly_table iso_date mixed_16 mixed_8 = Ok mixed_monthly ∧
  (("B"%string, 2020, 5) ∈ r_key <$> mixed_monthly ↔
   has_key mixed_16 ("B"%string, 2020, 5) ∨ has_key mixed_8 ("B"%string, 2020, 5)).
Proof.
  split; [exact mixed_monthly_eq|].
  exact (output_keys_are_input_keys iso_date mixed_16 mixed_8 mixed_monthly
           ("B"%string, 2020, 5) mixed_monthly_eq).
Defined.

Lemma matched_keys_joined_witness :
  let l := {| k_key := ("X"%string, 2020, 2); k_vals := [Some 0.5%Q; None; None] |} in
  let r := {| k_key := ("X"%string, 2020, 2); k_vals := [None; None; Some 300%Q] |} in
  {| k_key := ("X"%string, 2020, 2);
     k_vals := [Some 0.5%Q; None; None; None; None; Some 300%Q] |}
    ∈ merge_outer 3 3 [l] [r].
Proof.
  intros l r.
  refine (proj1 (proj2 (matched_keys_joined 3 3 [l] [r] l r _ _ _ _ _ _) eq_refl)).
  - apply NoDup_singleton.
  - apply NoDup_singleton.
  - by left.
  - by left.
  - reflexivity.
Defined.

Lemma unread_columns_ignored_witness :
  same_inputs vars_16 sentinel_16 sentinel_16_annotated ∧
  monthly_table iso_date sentinel_16 plain_8 =
  monthly_table iso_date sentinel_16_annotated plain_8.
Proof.
  assert (same_inputs vars_16 sentinel_16 sentinel_16_annotated) as S16.
  { repeat split. intros v Hv.
    repeat (apply elem_of_cons in Hv as [->|Hv]; [vm_compute; reflexivity|]).
    by apply not_elem_of_nil in Hv. }
  split; [exact S16|].
  apply (unread_columns_ignored iso_date sentinel_16 sentinel_16_annotated plain_8 plain_8 S16).
  - by repeat split.
  - by vm_compute.
  - by vm_compute.
  - by vm_compute.
  - by vm_compute.
Defined.

(** ** The values of the sheet *)






